(** * analytics-go: configuration validation and defaulting (config.go)

    A shallow embedding of [Config], [Config.validate] and [makeConfig].

    Modelling choices, all read off config.go:
    - [time.Duration] is an int64 count of nanoseconds and [int] is a machine
      integer; both are carried as [Z].  The two functions only compare these
      fields with 0 and store compile-time constants in them, so no
      wrap-around can occur; [in_int64] records the range and
      [makeConfig_in_range] shows that defaulting stays inside it.
    - [Transport], [Logger], [UID], [Now] and [RetryAfter] are nil-able
      handles (interface and function values): [option] over an abstract
      type, [None] standing for nil.  [Transport] is declared with the type
      [http.Transport] but is compared with nil and assigned
      [http.DefaultTransport], so it is read as the nil-able handle the code
      uses it as.
    - [validate] returns Go's [error]: [None] is nil, [Some e] a [ConfigError].
    - what config.go imports ([http.DefaultTransport], [newDefaultLogger()],
      [time.Now], [backo.DefaultBacko().Duration]) and the handle [uid], whose
      body only calls the uuid package, are the fields of the class
      [Collaborators]. *)

From Stdlib Require Import ZArith String Bool Lia.

Local Open Scope string_scope.
Local Open Scope Z_scope.

(** ** Errors *)

(** The [Value] field of [ConfigError] is an [interface{}]; validate stores
    either the offending [time.Duration] or the offending [int] in it. *)
Inductive Any : Type :=
  | DurationValue (d : Z)
  | IntValue (n : Z).

(** The composite literal [ConfigError{Reason: .., Field: .., Value: ..}]. *)
Record ConfigError : Type := mkConfigError {
  Reason : string;
  Field : string;
  Value : Any
}.

(** ** Constants *)

Definition DefaultEndpoint : string := "https://api.segment.io".

(** [time.Second], in nanoseconds. *)
Definition time_Second : Z := 1000000000.

Definition DefaultInterval : Z := 5 * time_Second.

Definition DefaultBatchSize : Z := 250.

Definition in_int64 (z : Z) : Prop := - 2 ^ 63 <= z < 2 ^ 63.

(** ** The environment of config.go

    The types of the handles a configuration carries and the default value
    the environment provides for each. *)
Class Collaborators : Type := {
  RoundTripper : Type;
  LoggerT : Type;
  UIDFunc : Type;
  NowFunc : Type;
  RetryFunc : Type;
  http_DefaultTransport : RoundTripper;
  newDefaultLogger : LoggerT;
  uid : UIDFunc;
  time_Now : NowFunc;
  backo_DefaultBacko_Duration : RetryFunc
}.

(** ** Config *)

Record Config `{Collaborators} : Type := mkConfig {
  Endpoint : string;
  Interval : Z;
  Transport : option RoundTripper;
  Logger : option LoggerT;
  BatchSize : Z;
  Verbose : bool;
  UID : option UIDFunc;
  Now : option NowFunc;
  RetryAfter : option RetryFunc
}.

(** The zero value of [Config], Go's [Config{}]. *)
Definition zeroConfig `{Collaborators} : Config :=
  mkConfig _ "" 0 None None 0 false None None None.

(** Field assignments [c.F = v] on the local copy. *)
Definition set_Endpoint `{Collaborators} (c : Config) (v : string) : Config :=
  mkConfig _ v (Interval c) (Transport c) (Logger c) (BatchSize c)
           (Verbose c) (UID c) (Now c) (RetryAfter c).

Definition set_Interval `{Collaborators} (c : Config) (v : Z) : Config :=
  mkConfig _ (Endpoint c) v (Transport c) (Logger c) (BatchSize c)
           (Verbose c) (UID c) (Now c) (RetryAfter c).

Definition set_Transport `{Collaborators} (c : Config)
    (v : option RoundTripper) : Config :=
  mkConfig _ (Endpoint c) (Interval c) v (Logger c) (BatchSize c)
           (Verbose c) (UID c) (Now c) (RetryAfter c).

Definition set_Logger `{Collaborators} (c : Config)
    (v : option LoggerT) : Config :=
  mkConfig _ (Endpoint c) (Interval c) (Transport c) v (BatchSize c)
           (Verbose c) (UID c) (Now c) (RetryAfter c).

Definition set_BatchSize `{Collaborators} (c : Config) (v : Z) : Config :=
  mkConfig _ (Endpoint c) (Interval c) (Transport c) (Logger c) v
           (Verbose c) (UID c) (Now c) (RetryAfter c).

Definition set_UID `{Collaborators} (c : Config)
    (v : option UIDFunc) : Config :=
  mkConfig _ (Endpoint c) (Interval c) (Transport c) (Logger c) (BatchSize c)
           (Verbose c) v (Now c) (RetryAfter c).

Definition set_Now `{Collaborators} (c : Config)
    (v : option NowFunc) : Config :=
  mkConfig _ (Endpoint c) (Interval c) (Transport c) (Logger c) (BatchSize c)
           (Verbose c) (UID c) v (RetryAfter c).

Definition set_RetryAfter `{Collaborators} (c : Config)
    (v : option RetryFunc) : Config :=
  mkConfig _ (Endpoint c) (Interval c) (Transport c) (Logger c) (BatchSize c)
           (Verbose c) (UID c) (Now c) v.

(** [x == nil] on a nil-able handle. *)
Definition is_nil {A : Type} (x : option A) : bool :=
  match x with
  | None => true
  | Some _ => false
  end.

(** ** Config.validate *)

Definition validate `{Collaborators} (c : Config) : option ConfigError :=
  if Interval c <? 0 then
    Some (mkConfigError "negative time intervals are not supported"
                        "Interval"
                        (DurationValue (Interval c)))
  else if BatchSize c <? 0 then
    Some (mkConfigError "negative batch sizes are not supported"
                        "BatchSize"
                        (IntValue (BatchSize c)))
  else None.

(** ** makeConfig

    The eight guarded assignments, in the order of the source; each [let]
    rebinds the local copy [c]. *)
Definition makeConfig `{Collaborators} (c : Config) : Config :=
  let c := if (String.length (Endpoint c) =? 0)%nat
           then set_Endpoint c DefaultEndpoint else c in
  let c := if Interval c =? 0
           then set_Interval c DefaultInterval else c in
  let c := if is_nil (Transport c)
           then set_Transport c (Some http_DefaultTransport) else c in
  let c := if is_nil (Logger c)
           then set_Logger c (Some newDefaultLogger) else c in
  let c := if BatchSize c =? 0
           then set_BatchSize c DefaultBatchSize else c in
  let c := if is_nil (UID c)
           then set_UID c (Some uid) else c in
  let c := if is_nil (Now c)
           then set_Now c (Some time_Now) else c in
  let c := if is_nil (RetryAfter c)
           then set_RetryAfter c (Some backo_DefaultBacko_Duration) else c in
  c.

(** ** Predicates on records *)

(** The two invariants of the data model. *)
Definition valid `{Collaborators} (c : Config) : Prop :=
  0 <= Interval c /\ 0 <= BatchSize c.

(** Both numeric fields fit their machine type. *)
Definition in_range `{Collaborators} (c : Config) : Prop :=
  in_int64 (Interval c) /\ in_int64 (BatchSize c).

(** No field that [makeConfig] guards is at its zero value: the endpoint is
    not empty, the two numbers are not 0 and no handle is nil. *)
Definition populated `{Collaborators} (c : Config) : Prop :=
  Endpoint c <> "" /\ Interval c <> 0 /\ Transport c <> None /\
  Logger c <> None /\ BatchSize c <> 0 /\ UID c <> None /\
  Now c <> None /\ RetryAfter c <> None.

(** ** A concrete environment

    Handles are named by strings; used to run the two functions on explicit
    records. *)
Module Sample.

#[export] Instance env : Collaborators := {|
  RoundTripper := string;
  LoggerT := string;
  UIDFunc := string;
  NowFunc := string;
  RetryFunc := string;
  http_DefaultTransport := "http.DefaultTransport";
  newDefaultLogger := "newDefaultLogger()";
  uid := "uid";
  time_Now := "time.Now";
  backo_DefaultBacko_Duration := "backo.DefaultBacko().Duration"
|}.

(** [Config{}] *)
Definition empty : Config := zeroConfig.

(** [Config{Interval: -1 * time.Second}] *)
Definition negInterval : Config :=
  mkConfig _ "" (- time_Second) None None 0 false None None None.

(** [Config{BatchSize: -5}] *)
Definition negBatch : Config :=
  mkConfig _ "" 0 None None (-5) false None None None.

(** [Config{Interval: -1 * time.Second, BatchSize: -5}] *)
Definition negBoth : Config :=
  mkConfig _ "" (- time_Second) None None (-5) false None None None.

(** [Config{Endpoint: "https://custom.example.com", BatchSize: 10}] *)
Definition custom : Config :=
  mkConfig _ "https://custom.example.com" 0 None None 10 false None None None.

(** A record with every field set by the caller. *)
Definition full : Config :=
  mkConfig _ "https://custom.example.com" (2 * time_Second)
           (Some "my transport") (Some "my logger") 10 true
           (Some "my uid") (Some "my clock") (Some "my retry").

(** [negBoth] with every other field set by the caller. *)
Definition negBothFull : Config :=
  mkConfig _ "https://custom.example.com" (- time_Second)
           (Some "my transport") (Some "my logger") (-5) true
           (Some "my uid") (Some "my clock") (Some "my retry").

End Sample.

(** ** Field-wise description of [makeConfig] *)

(** Splits a record into its fields and every guard of [makeConfig] into its
    two outcomes. *)
Ltac split_guards c :=
  destruct c as [e i t l b v u n r];
  unfold makeConfig; cbn;
  destruct e; cbn;
  destruct (i =? 0) eqn:?; cbn;
  destruct t; cbn;
  destruct l; cbn;
  destruct (b =? 0) eqn:?; cbn;
  destruct u; cbn;
  destruct n; cbn;
  destruct r; cbn.

Lemma makeConfig_Endpoint `{Collaborators} (c : Config) :
  Endpoint (makeConfig c) =
  if (String.length (Endpoint c) =? 0)%nat then DefaultEndpoint else Endpoint c.
Proof. split_guards c; reflexivity. Qed.

Lemma makeConfig_Interval `{Collaborators} (c : Config) :
  Interval (makeConfig c) =
  if Interval c =? 0 then DefaultInterval else Interval c.
Proof. split_guards c; reflexivity. Qed.

Lemma makeConfig_Transport `{Collaborators} (c : Config) :
  Transport (makeConfig c) =
  if is_nil (Transport c) then Some http_DefaultTransport else Transport c.
Proof. split_guards c; reflexivity. Qed.

Lemma makeConfig_Logger `{Collaborators} (c : Config) :
  Logger (makeConfig c) =
  if is_nil (Logger c) then Some newDefaultLogger else Logger c.
Proof. split_guards c; reflexivity. Qed.

Lemma makeConfig_BatchSize `{Collaborators} (c : Config) :
  BatchSize (makeConfig c) =
  if BatchSize c =? 0 then DefaultBatchSize else BatchSize c.
Proof. split_guards c; reflexivity. Qed.

Lemma makeConfig_Verbose `{Collaborators} (c : Config) :
  Verbose (makeConfig c) = Verbose c.
Proof. split_guards c; reflexivity. Qed.

Lemma makeConfig_UID `{Collaborators} (c : Config) :
  UID (makeConfig c) = if is_nil (UID c) then Some uid else UID c.
Proof. split_guards c; reflexivity. Qed.

Lemma makeConfig_Now `{Collaborators} (c : Config) :
  Now (makeConfig c) = if is_nil (Now c) then Some time_Now else Now c.
Proof. split_guards c; reflexivity. Qed.

Lemma makeConfig_RetryAfter `{Collaborators} (c : Config) :
  RetryAfter (makeConfig c) =
  if is_nil (RetryAfter c) then Some backo_DefaultBacko_Duration
  else RetryAfter c.
Proof. split_guards c; reflexivity. Qed.

(** Two records with the same nine fields are the same record. *)
Lemma Config_ext `{Collaborators} (c d : Config) :
  Endpoint c = Endpoint d -> Interval c = Interval d ->
  Transport c = Transport d -> Logger c = Logger d ->
  BatchSize c = BatchSize d -> Verbose c = Verbose d ->
  UID c = UID d -> Now c = Now d -> RetryAfter c = RetryAfter d ->
  c = d.
Proof.
  destruct c, d; cbn; intros; subst; reflexivity.
Qed.

(** ** The constants *)

Lemma DefaultInterval_value : DefaultInterval = 5000000000.
Proof. reflexivity. Qed.

Lemma DefaultInterval_in_int64 : in_int64 DefaultInterval.
Proof. unfold in_int64, DefaultInterval, time_Second; lia. Qed.

Lemma DefaultBatchSize_in_int64 : in_int64 DefaultBatchSize.
Proof. unfold in_int64, DefaultBatchSize; lia. Qed.

Lemma makeConfig_in_range `{Collaborators} (c : Config) :
  in_range c -> in_range (makeConfig c).
Proof.
  unfold in_range; intros [Hi Hb].
  rewrite makeConfig_Interval, makeConfig_BatchSize.
  split.
  - destruct (Interval c =? 0); [apply DefaultInterval_in_int64 | exact Hi].
  - destruct (BatchSize c =? 0); [apply DefaultBatchSize_in_int64 | exact Hb].
Qed.

(** ** Outcomes of [validate], one lemma per branch *)

Lemma validate_negative_interval `{Collaborators} (c : Config) :
  Interval c < 0 ->
  validate c =
  Some (mkConfigError "negative time intervals are not supported"
                      "Interval" (DurationValue (Interval c))).
Proof.
  intros Hlt. unfold validate.
  apply Z.ltb_lt in Hlt. rewrite Hlt. reflexivity.
Qed.

Lemma validate_negative_batch `{Collaborators} (c : Config) :
  0 <= Interval c -> BatchSize c < 0 ->
  validate c =
  Some (mkConfigError "negative batch sizes are not supported"
                      "BatchSize" (IntValue (BatchSize c))).
Proof.
  intros Hi Hb. unfold validate.
  apply Z.ltb_ge in Hi. apply Z.ltb_lt in Hb.
  rewrite Hi, Hb. reflexivity.
Qed.

Lemma validate_valid `{Collaborators} (c : Config) :
  0 <= Interval c -> 0 <= BatchSize c -> validate c = None.
Proof.
  intros Hi Hb. unfold validate.
  apply Z.ltb_ge in Hi. apply Z.ltb_ge in Hb.
  rewrite Hi, Hb. reflexivity.
Qed.

(** ** Validation *)

(** C1. [validate] returns nil exactly when [Interval] and [BatchSize] are
    both non-negative; when either is negative it returns an error, and the
    result type holds at most one [ConfigError]. *)
Theorem validate_succeeds_iff_valid `{Collaborators} (c : Config) :
  (validate c = None <-> 0 <= Interval c /\ 0 <= BatchSize c) /\
  (Interval c < 0 \/ BatchSize c < 0 -> exists e, validate c = Some e).
Proof.
  split; [split |].
  - unfold validate.
    destruct (Interval c <? 0) eqn:Ei; [discriminate |].
    destruct (BatchSize c <? 0) eqn:Eb; [discriminate |].
    intros _. apply Z.ltb_ge in Ei. apply Z.ltb_ge in Eb. split; assumption.
  - intros [Hi Hb]. apply validate_valid; assumption.
  - intros Hneg.
    destruct (Z.lt_ge_cases (Interval c) 0) as [Hi | Hi].
    + eexists. apply validate_negative_interval. exact Hi.
    + destruct Hneg as [Hi' | Hb]; [lia |].
      eexists. apply validate_negative_batch; assumption.
Qed.

Lemma validate_succeeds_iff_valid_witness :
  validate Sample.custom = None /\
  (exists e, validate Sample.negBatch = Some e).
Proof.
  split.
  - apply (proj1 (@validate_succeeds_iff_valid Sample.env Sample.custom)).
    cbn. lia.
  - apply (proj2 (@validate_succeeds_iff_valid Sample.env Sample.negBatch)).
    right. cbn. lia.
Defined.

(** C3, as the code has it. For every record with [Interval < 0], [validate]
    fails and the error has reason "negative time intervals are not
    supported", field name "Interval" (the name of the Go field) and the
    input's interval as its value. *)
Theorem validate_negative_interval_error `{Collaborators} (c : Config) :
  Interval c < 0 ->
  exists e, validate c = Some e /\
    Reason e = "negative time intervals are not supported" /\
    Field e = "Interval" /\
    Value e = DurationValue (Interval c).
Proof.
  intros Hlt. eexists. split.
  - apply validate_negative_interval. exact Hlt.
  - cbn. repeat split.
Qed.

Lemma validate_negative_interval_error_witness :
  exists e, validate Sample.negInterval = Some e /\
    Reason e = "negative time intervals are not supported" /\
    Field e = "Interval" /\
    Value e = DurationValue (- 1000000000).
Proof.
  apply (@validate_negative_interval_error Sample.env Sample.negInterval).
  cbn. lia.
Defined.

(** C3 as stated fails on [Config{Interval: -1 * time.Second}]: the error
    names the field "Interval", not "flushInterval". *)
Lemma validate_interval_field_is_not_flushInterval :
  Interval Sample.negInterval < 0 /\
  ~ (exists e, validate Sample.negInterval = Some e /\
       Reason e = "negative time intervals are not supported" /\
       Field e = "flushInterval" /\
       Value e = DurationValue (Interval Sample.negInterval)).
Proof.
  split; [cbn; lia |].
  intros (e & Hv & _ & Hf & _).
  cbn in Hv. injection Hv as <-. cbn in Hf. discriminate Hf.
Qed.

(** C4, as the code has it. For every record with [BatchSize < 0] and
    [Interval >= 0], [validate] fails with field name "BatchSize" (the name
    of the Go field); when both are negative the one error returned is the
    interval one. *)
Theorem validate_negative_batch_error `{Collaborators} (c : Config) :
  (0 <= Interval c -> BatchSize c < 0 ->
   exists e, validate c = Some e /\
     Reason e = "negative batch sizes are not supported" /\
     Field e = "BatchSize" /\
     Value e = IntValue (BatchSize c)) /\
  (Interval c < 0 -> BatchSize c < 0 ->
   validate c =
   Some (mkConfigError "negative time intervals are not supported"
                       "Interval" (DurationValue (Interval c)))).
Proof.
  split.
  - intros Hi Hb. eexists. split.
    + apply validate_negative_batch; assumption.
    + cbn. repeat split.
  - intros Hi _. apply validate_negative_interval. exact Hi.
Qed.

Lemma validate_negative_batch_error_witness :
  (exists e, validate Sample.negBatch = Some e /\
     Reason e = "negative batch sizes are not supported" /\
     Field e = "BatchSize" /\
     Value e = IntValue (-5)) /\
  validate Sample.negBoth =
  Some (mkConfigError "negative time intervals are not supported"
                      "Interval" (DurationValue (- 1000000000))).
Proof.
  split.
  - apply (proj1 (@validate_negative_batch_error Sample.env Sample.negBatch));
      cbn; lia.
  - apply (proj2 (@validate_negative_batch_error Sample.env Sample.negBoth));
      cbn; lia.
Defined.

(** C4 as stated fails on [Config{BatchSize: -5}]: the error names the field
    "BatchSize", not "batchSize". *)
Lemma validate_batch_field_is_not_batchSize :
  BatchSize Sample.negBatch < 0 /\ 0 <= Interval Sample.negBatch /\
  ~ (exists e, validate Sample.negBatch = Some e /\ Field e = "batchSize").
Proof.
  split; [cbn; lia |]. split; [cbn; lia |].
  intros (e & Hv & Hf).
  cbn in Hv. injection Hv as <-. cbn in Hf. discriminate Hf.
Qed.

(** C10. [validate] reads [Interval] and [BatchSize] only: two records that
    agree on both get the same result, nil or the same error. *)
Theorem validate_depends_on_interval_and_batch `{Collaborators}
    (c1 c2 : Config) :
  Interval c1 = Interval c2 ->
  BatchSize c1 = BatchSize c2 ->
  validate c1 = validate c2.
Proof.
  intros Hi Hb. unfold validate. rewrite Hi, Hb. reflexivity.
Qed.

Lemma validate_depends_on_interval_and_batch_witness :
  validate Sample.negBoth = validate Sample.negBothFull.
Proof.
  apply (@validate_depends_on_interval_and_batch Sample.env);
    reflexivity.
Defined.

(** ** Defaulting *)

(** A guard on a number that is not zero takes its else branch. *)
Lemma eqb_0_false (z : Z) : z <> 0 -> (z =? 0) = false.
Proof. intros Hz. apply Z.eqb_neq. exact Hz. Qed.

(** A string that is not empty has a length other than zero. *)
Lemma length_eqb_0_false (s : string) :
  s <> "" -> (String.length s =? 0)%nat = false.
Proof.
  intros Hs. destruct s; [contradiction Hs; reflexivity | reflexivity].
Qed.

Lemma is_nil_false {A : Type} (x : option A) : x <> None -> is_nil x = false.
Proof.
  intros Hx. destruct x; [reflexivity | contradiction Hx; reflexivity].
Qed.

(** C2, as the code has it. [makeConfig] keeps both invariants: when the
    input has [Interval >= 0] and [BatchSize >= 0], so has the result. *)
Theorem makeConfig_preserves_valid `{Collaborators} (c : Config) :
  valid c -> valid (makeConfig c).
Proof.
  unfold valid. intros [Hi Hb].
  rewrite makeConfig_Interval, makeConfig_BatchSize. split.
  - destruct (Interval c =? 0); [unfold DefaultInterval, time_Second; lia |].
    exact Hi.
  - destruct (BatchSize c =? 0); [unfold DefaultBatchSize; lia | exact Hb].
Qed.

Lemma makeConfig_preserves_valid_witness :
  valid (makeConfig Sample.custom).
Proof.
  apply (@makeConfig_preserves_valid Sample.env Sample.custom).
  unfold valid. cbn. lia.
Defined.

(** C2 as stated fails on [Config{Interval: -1 * time.Second}]: the result
    still has the negative interval. *)
Lemma makeConfig_negative_interval_not_valid :
  Interval (makeConfig Sample.negInterval) = - 1000000000 /\
  ~ (0 <= Interval (makeConfig Sample.negInterval) /\
     0 <= BatchSize (makeConfig Sample.negInterval)).
Proof.
  split; [reflexivity |].
  cbn. intros [Hi _]. lia.
Qed.

(** C5. [makeConfig] is a total function into [Config] (its result has no
    error component), and a negative [Interval] or [BatchSize] comes back as
    it went in: still negative, so neither 0 nor the default. *)
Theorem makeConfig_keeps_negative `{Collaborators} (c : Config) :
  (exists r, makeConfig c = r) /\
  (Interval c < 0 ->
   Interval (makeConfig c) = Interval c /\
   Interval (makeConfig c) <> 0 /\
   Interval (makeConfig c) <> DefaultInterval) /\
  (BatchSize c < 0 ->
   BatchSize (makeConfig c) = BatchSize c /\
   BatchSize (makeConfig c) <> 0 /\
   BatchSize (makeConfig c) <> DefaultBatchSize).
Proof.
  split; [eexists; reflexivity |]. split; intros Hneg.
  - rewrite makeConfig_Interval, eqb_0_false by lia.
    unfold DefaultInterval, time_Second. lia.
  - rewrite makeConfig_BatchSize, eqb_0_false by lia.
    unfold DefaultBatchSize. lia.
Qed.

Lemma makeConfig_keeps_negative_witness :
  Interval (makeConfig Sample.negBoth) = - 1000000000 /\
  BatchSize (makeConfig Sample.negBoth) = -5.
Proof.
  destruct (@makeConfig_keeps_negative Sample.env Sample.negBoth)
    as (_ & Hi & Hb).
  split.
  - apply Hi. cbn. lia.
  - apply Hb. cbn. lia.
Defined.

(** C6. [makeConfig] of the zero record: endpoint "https://api.segment.io",
    interval 5 seconds (5 * 10^9 ns), batch size 250, and each handle the
    default of its own field; [Verbose], which has no default, stays false. *)
Theorem makeConfig_zeroConfig `{Collaborators} :
  makeConfig zeroConfig =
  mkConfig _ "https://api.segment.io" (5 * 1000000000)
           (Some http_DefaultTransport) (Some newDefaultLogger) 250 false
           (Some uid) (Some time_Now) (Some backo_DefaultBacko_Duration).
Proof. reflexivity. Qed.

(** C7. A field that is not the zero value of its type comes back
    unchanged, for each of the nine fields. *)
Theorem makeConfig_keeps_nonzero `{Collaborators} (c : Config) :
  (Endpoint c <> "" -> Endpoint (makeConfig c) = Endpoint c) /\
  (Interval c <> 0 -> Interval (makeConfig c) = Interval c) /\
  (Transport c <> None -> Transport (makeConfig c) = Transport c) /\
  (Logger c <> None -> Logger (makeConfig c) = Logger c) /\
  (BatchSize c <> 0 -> BatchSize (makeConfig c) = BatchSize c) /\
  (Verbose c <> false -> Verbose (makeConfig c) = Verbose c) /\
  (UID c <> None -> UID (makeConfig c) = UID c) /\
  (Now c <> None -> Now (makeConfig c) = Now c) /\
  (RetryAfter c <> None -> RetryAfter (makeConfig c) = RetryAfter c).
Proof.
  repeat split; intros Hset.
  - rewrite makeConfig_Endpoint, length_eqb_0_false; auto.
  - rewrite makeConfig_Interval, eqb_0_false; auto.
  - rewrite makeConfig_Transport, is_nil_false; auto.
  - rewrite makeConfig_Logger, is_nil_false; auto.
  - rewrite makeConfig_BatchSize, eqb_0_false; auto.
  - apply makeConfig_Verbose.
  - rewrite makeConfig_UID, is_nil_false; auto.
  - rewrite makeConfig_Now, is_nil_false; auto.
  - rewrite makeConfig_RetryAfter, is_nil_false; auto.
Qed.

Lemma makeConfig_keeps_nonzero_witness :
  makeConfig Sample.full = Sample.full.
Proof.
  destruct (@makeConfig_keeps_nonzero Sample.env Sample.full)
    as (He & Hi & Ht & Hl & Hb & Hv & Hu & Hn & Hr).
  apply Config_ext;
    [ apply He | apply Hi | apply Ht | apply Hl | apply Hb
    | apply Hv | apply Hu | apply Hn | apply Hr ];
    cbn; discriminate.
Defined.

(** C8. [makeConfig] is idempotent: a second application changes no
    field. *)
Theorem makeConfig_idempotent `{Collaborators} (c : Config) :
  makeConfig (makeConfig c) = makeConfig c.
Proof.
  apply Config_ext.
  - rewrite !makeConfig_Endpoint.
    destruct (String.length (Endpoint c) =? 0)%nat eqn:E;
      [reflexivity | rewrite E; reflexivity].
  - rewrite !makeConfig_Interval.
    destruct (Interval c =? 0) eqn:E; [reflexivity | rewrite E; reflexivity].
  - rewrite !makeConfig_Transport. destruct (Transport c); reflexivity.
  - rewrite !makeConfig_Logger. destruct (Logger c); reflexivity.
  - rewrite !makeConfig_BatchSize.
    destruct (BatchSize c =? 0) eqn:E; [reflexivity | rewrite E; reflexivity].
  - rewrite !makeConfig_Verbose. reflexivity.
  - rewrite !makeConfig_UID. destruct (UID c); reflexivity.
  - rewrite !makeConfig_Now. destruct (Now c); reflexivity.
  - rewrite !makeConfig_RetryAfter. destruct (RetryAfter c); reflexivity.
Qed.

(** C9. [makeConfig] returns [Verbose] as it got it, false included, while
    each of the other eight fields at its zero value is replaced by its
    default. *)
Theorem makeConfig_frames_Verbose `{Collaborators} (c : Config) :
  Verbose (makeConfig c) = Verbose c /\
  (Verbose c = false -> Verbose (makeConfig c) = false) /\
  (Endpoint c = "" -> Endpoint (makeConfig c) = DefaultEndpoint) /\
  (Interval c = 0 -> Interval (makeConfig c) = DefaultInterval) /\
  (Transport c = None ->
   Transport (makeConfig c) = Some http_DefaultTransport) /\
  (Logger c = None -> Logger (makeConfig c) = Some newDefaultLogger) /\
  (BatchSize c = 0 -> BatchSize (makeConfig c) = DefaultBatchSize) /\
  (UID c = None -> UID (makeConfig c) = Some uid) /\
  (Now c = None -> Now (makeConfig c) = Some time_Now) /\
  (RetryAfter c = None ->
   RetryAfter (makeConfig c) = Some backo_DefaultBacko_Duration).
Proof.
  split; [apply makeConfig_Verbose |].
  repeat split; intros Hzero.
  - rewrite makeConfig_Verbose. exact Hzero.
  - rewrite makeConfig_Endpoint, Hzero. reflexivity.
  - rewrite makeConfig_Interval, Hzero. reflexivity.
  - rewrite makeConfig_Transport, Hzero. reflexivity.
  - rewrite makeConfig_Logger, Hzero. reflexivity.
  - rewrite makeConfig_BatchSize, Hzero. reflexivity.
  - rewrite makeConfig_UID, Hzero. reflexivity.
  - rewrite makeConfig_Now, Hzero. reflexivity.
  - rewrite makeConfig_RetryAfter, Hzero. reflexivity.
Qed.

Lemma makeConfig_frames_Verbose_witness :
  Verbose (makeConfig Sample.empty) = false /\
  Verbose (makeConfig Sample.full) = true /\
  Endpoint (makeConfig Sample.empty) = "https://api.segment.io".
Proof.
  destruct (@makeConfig_frames_Verbose Sample.env Sample.empty)
    as (_ & Hv & He & _).
  split; [apply Hv; reflexivity |].
  split; [| apply He; reflexivity].
  apply (proj1 (@makeConfig_frames_Verbose Sample.env Sample.full)).
Defined.

(** Scenario of the specification: explicit endpoint and batch size are kept,
    everything else is defaulted. *)
Example makeConfig_custom :
  makeConfig Sample.custom =
  @mkConfig Sample.env "https://custom.example.com" 5000000000
           (Some "http.DefaultTransport") (Some "newDefaultLogger()") 10 false
           (Some "uid") (Some "time.Now")
           (Some "backo.DefaultBacko().Duration").
Proof. reflexivity. Qed.

(** ** Further properties of the two passes *)

Lemma DefaultEndpoint_not_empty : DefaultEndpoint <> "".
Proof. discriminate. Qed.

Lemma DefaultInterval_positive : 0 < DefaultInterval.
Proof. unfold DefaultInterval, time_Second. lia. Qed.

Lemma DefaultBatchSize_positive : 0 < DefaultBatchSize.
Proof. unfold DefaultBatchSize. lia. Qed.

(** What a guard of [makeConfig] leaves in a field is not a zero value. *)
Lemma guarded_endpoint_not_empty (s : string) :
  (if (String.length s =? 0)%nat then DefaultEndpoint else s) <> "".
Proof.
  destruct s; cbn; [apply DefaultEndpoint_not_empty | discriminate].
Qed.

Lemma guarded_number_not_zero (z d : Z) :
  0 < d -> (if z =? 0 then d else z) <> 0.
Proof.
  intros Hd. destruct (z =? 0) eqn:E; [lia | apply Z.eqb_neq; exact E].
Qed.

Lemma guarded_handle_not_nil {A : Type} (x : option A) (d : A) :
  (if is_nil x then Some d else x) <> None.
Proof. destruct x; discriminate. Qed.

(** Closes [populated (makeConfig c)] field by field. *)
Ltac populated_fields :=
  unfold populated;
  rewrite makeConfig_Endpoint, makeConfig_Interval, makeConfig_Transport,
    makeConfig_Logger, makeConfig_BatchSize, makeConfig_UID, makeConfig_Now,
    makeConfig_RetryAfter;
  repeat split;
  first [ apply guarded_endpoint_not_empty
        | apply guarded_handle_not_nil
        | apply guarded_number_not_zero;
          first [ apply DefaultInterval_positive
                | apply DefaultBatchSize_positive ] ].

(** X1. Whatever the input, the record [makeConfig] returns is fully
    populated: its endpoint is not empty, its interval and batch size are not
    0, and none of its five handles is nil. *)
Theorem makeConfig_populated `{Collaborators} (c : Config) :
  populated (makeConfig c).
Proof. populated_fields. Qed.

(** X2. Defaulting does not change the outcome of validation: [validate] on
    the record [makeConfig] returns gives the result, nil or the same error
    with the same value, that it gives on the input. *)
Theorem validate_makeConfig `{Collaborators} (c : Config) :
  validate (makeConfig c) = validate c.
Proof.
  unfold validate.
  rewrite makeConfig_Interval, makeConfig_BatchSize.
  destruct (Interval c =? 0) eqn:Ei.
  - apply Z.eqb_eq in Ei. rewrite Ei. cbn.
    destruct (BatchSize c =? 0) eqn:Eb.
    + apply Z.eqb_eq in Eb. rewrite Eb. reflexivity.
    + reflexivity.
  - destruct (Interval c <? 0); [reflexivity |].
    destruct (BatchSize c =? 0) eqn:Eb.
    + apply Z.eqb_eq in Eb. rewrite Eb. reflexivity.
    + reflexivity.
Qed.

(** X3. The interval of the resolved record is strictly positive exactly
    when the input's interval is not negative, and likewise for the batch
    size: after a successful validation the client never sees a zero
    interval or a zero batch size. *)
Theorem makeConfig_positive_iff `{Collaborators} (c : Config) :
  (0 < Interval (makeConfig c) <-> 0 <= Interval c) /\
  (0 < BatchSize (makeConfig c) <-> 0 <= BatchSize c).
Proof.
  rewrite makeConfig_Interval, makeConfig_BatchSize.
  pose proof DefaultInterval_positive as Hdi.
  pose proof DefaultBatchSize_positive as Hdb.
  split.
  - destruct (Interval c =? 0) eqn:E.
    + apply Z.eqb_eq in E. lia.
    + apply Z.eqb_neq in E. lia.
  - destruct (BatchSize c =? 0) eqn:E.
    + apply Z.eqb_eq in E. lia.
    + apply Z.eqb_neq in E. lia.
Qed.

(** X4. Every error [validate] returns is one of two: the interval error,
    whose value is the input's interval as a duration and is negative, or the
    batch-size error, whose value is the input's batch size as an int and is
    negative while the interval is not. *)
Theorem validate_error_inversion `{Collaborators} (c : Config)
    (e : ConfigError) :
  validate c = Some e ->
  (Interval c < 0 /\
   e = mkConfigError "negative time intervals are not supported"
                     "Interval" (DurationValue (Interval c))) \/
  (0 <= Interval c /\ BatchSize c < 0 /\
   e = mkConfigError "negative batch sizes are not supported"
                     "BatchSize" (IntValue (BatchSize c))).
Proof.
  unfold validate.
  destruct (Interval c <? 0) eqn:Ei.
  - intros Hv. injection Hv as <-. left.
    apply Z.ltb_lt in Ei. split; [exact Ei | reflexivity].
  - apply Z.ltb_ge in Ei.
    destruct (BatchSize c <? 0) eqn:Eb; [| discriminate].
    intros Hv. injection Hv as <-. right.
    apply Z.ltb_lt in Eb. repeat split; assumption.
Qed.

Lemma validate_error_inversion_witness :
  (Interval Sample.negBatch < 0 /\
   mkConfigError "negative batch sizes are not supported" "BatchSize"
                 (IntValue (-5)) =
   mkConfigError "negative time intervals are not supported"
                 "Interval" (DurationValue (Interval Sample.negBatch))) \/
  (0 <= Interval Sample.negBatch /\ BatchSize Sample.negBatch < 0 /\
   mkConfigError "negative batch sizes are not supported" "BatchSize"
                 (IntValue (-5)) =
   mkConfigError "negative batch sizes are not supported"
                 "BatchSize" (IntValue (BatchSize Sample.negBatch))).
Proof.
  apply (@validate_error_inversion Sample.env Sample.negBatch).
  reflexivity.
Defined.

(** X5. The records [makeConfig] leaves as they are are exactly the fully
    populated ones. *)
Theorem makeConfig_fixed_point_iff `{Collaborators} (c : Config) :
  makeConfig c = c <-> populated c.
Proof.
  split.
  - intros Hfix. rewrite <- Hfix. populated_fields.
  - unfold populated. intros (He & Hi & Ht & Hl & Hb & Hu & Hn & Hr).
    apply Config_ext.
    + rewrite makeConfig_Endpoint, length_eqb_0_false; auto.
    + rewrite makeConfig_Interval, eqb_0_false; auto.
    + rewrite makeConfig_Transport, is_nil_false; auto.
    + rewrite makeConfig_Logger, is_nil_false; auto.
    + rewrite makeConfig_BatchSize, eqb_0_false; auto.
    + apply makeConfig_Verbose.
    + rewrite makeConfig_UID, is_nil_false; auto.
    + rewrite makeConfig_Now, is_nil_false; auto.
    + rewrite makeConfig_RetryAfter, is_nil_false; auto.
Qed.

(** X6. The guards do not interact: each field of the result depends on the
    same field of the input only, so two inputs that agree on a field get
    results that agree on it. *)
Theorem makeConfig_fieldwise `{Collaborators} (c1 c2 : Config) :
  (Endpoint c1 = Endpoint c2 ->
   Endpoint (makeConfig c1) = Endpoint (makeConfig c2)) /\
  (Interval c1 = Interval c2 ->
   Interval (makeConfig c1) = Interval (makeConfig c2)) /\
  (Transport c1 = Transport c2 ->
   Transport (makeConfig c1) = Transport (makeConfig c2)) /\
  (Logger c1 = Logger c2 ->
   Logger (makeConfig c1) = Logger (makeConfig c2)) /\
  (BatchSize c1 = BatchSize c2 ->
   BatchSize (makeConfig c1) = BatchSize (makeConfig c2)) /\
  (Verbose c1 = Verbose c2 ->
   Verbose (makeConfig c1) = Verbose (makeConfig c2)) /\
  (UID c1 = UID c2 -> UID (makeConfig c1) = UID (makeConfig c2)) /\
  (Now c1 = Now c2 -> Now (makeConfig c1) = Now (makeConfig c2)) /\
  (RetryAfter c1 = RetryAfter c2 ->
   RetryAfter (makeConfig c1) = RetryAfter (makeConfig c2)).
Proof.
  repeat split; intros Hsame.
  - rewrite !makeConfig_Endpoint, Hsame. reflexivity.
  - rewrite !makeConfig_Interval, Hsame. reflexivity.
  - rewrite !makeConfig_Transport, Hsame. reflexivity.
  - rewrite !makeConfig_Logger, Hsame. reflexivity.
  - rewrite !makeConfig_BatchSize, Hsame. reflexivity.
  - rewrite !makeConfig_Verbose. exact Hsame.
  - rewrite !makeConfig_UID, Hsame. reflexivity.
  - rewrite !makeConfig_Now, Hsame. reflexivity.
  - rewrite !makeConfig_RetryAfter, Hsame. reflexivity.
Qed.

Lemma makeConfig_fieldwise_witness :
  Interval (makeConfig Sample.negBoth) =
  Interval (makeConfig Sample.negBothFull) /\
  Endpoint (makeConfig Sample.empty) = Endpoint (makeConfig Sample.negBatch).
Proof.
  split.
  - apply (@makeConfig_fieldwise Sample.env Sample.negBoth Sample.negBothFull).
    reflexivity.
  - apply (@makeConfig_fieldwise Sample.env Sample.empty Sample.negBatch).
    reflexivity.
Defined.

(** X7. Leaving a field unset and setting it to its default by hand cannot
    be told apart after [makeConfig]: for each guarded field at its zero
    value, assigning the default before the call gives the same record. *)
Theorem makeConfig_unset_is_default `{Collaborators} (c : Config) :
  (Endpoint c = "" ->
   makeConfig (set_Endpoint c DefaultEndpoint) = makeConfig c) /\
  (Interval c = 0 ->
   makeConfig (set_Interval c DefaultInterval) = makeConfig c) /\
  (Transport c = None ->
   makeConfig (set_Transport c (Some http_DefaultTransport)) =
   makeConfig c) /\
  (Logger c = None ->
   makeConfig (set_Logger c (Some newDefaultLogger)) = makeConfig c) /\
  (BatchSize c = 0 ->
   makeConfig (set_BatchSize c DefaultBatchSize) = makeConfig c) /\
  (UID c = None -> makeConfig (set_UID c (Some uid)) = makeConfig c) /\
  (Now c = None -> makeConfig (set_Now c (Some time_Now)) = makeConfig c) /\
  (RetryAfter c = None ->
   makeConfig (set_RetryAfter c (Some backo_DefaultBacko_Duration)) =
   makeConfig c).
Proof.
  destruct c as [e i t l b v u n r]; cbn.
  repeat split; intros Hzero; subst;
    apply Config_ext;
    rewrite ?makeConfig_Endpoint, ?makeConfig_Interval, ?makeConfig_Transport,
      ?makeConfig_Logger, ?makeConfig_BatchSize, ?makeConfig_Verbose,
      ?makeConfig_UID, ?makeConfig_Now, ?makeConfig_RetryAfter;
    reflexivity.
Qed.

Lemma makeConfig_unset_is_default_witness :
  makeConfig (set_Interval Sample.empty DefaultInterval) =
  makeConfig Sample.empty /\
  makeConfig (set_UID Sample.custom (Some (@uid Sample.env))) =
  makeConfig Sample.custom.
Proof.
  split.
  - apply (@makeConfig_unset_is_default Sample.env Sample.empty).
    reflexivity.
  - apply (@makeConfig_unset_is_default Sample.env Sample.custom).
    reflexivity.
Defined.
